(** * kubectl create persistentvolumeclaim: option validation and claim construction

    A shallow embedding of [pkg/cmd/create/create_persistentvolumeclaim.go]:
    [Validate], [Run], [createPersistentVolumeClaim], [parseAccessModes] and
    [parseResources], together with the few library functions they call
    ([strings.Split], [slices.Contains], [fmt.Errorf]).  [Run] is modelled
    with the calls it makes to its collaborators (the annotation helper, the
    client and the printer) as its visible effect.

    The quantity library [k8s.io/apimachinery/pkg/api/resource] is not part of
    the package; the program only calls [ParseQuantity] and [Cmp] on it, so it
    enters the development as an interface ([resource_requests.Library]). *)

From Stdlib Require Import String Ascii List ZArith QArith Lia.
From stdpp Require Import base strings gmap.

Local Open Scope string_scope.
Local Open Scope Z_scope.

(** ** Go library functions used by the command *)

(** The built-in [len] on a string (a count of bytes). *)
Definition len (s : string) : Z := Z.of_nat (String.length s).

(** [strings.Split(s, sep)] for a separator [sep] of one byte, which is how the
    command calls it.  The result always has at least one element: a string
    without separator is returned whole, the empty string included. *)
Fixpoint Split (s : string) (sep : ascii) : list string :=
  match s with
  | EmptyString => [EmptyString]
  | String c s' =>
      if Ascii.eqb c sep then EmptyString :: Split s' sep
      else match Split s' sep with
           | tok :: toks => String c tok :: toks
           | [] => [String c EmptyString]
           end
  end.

(** Whether the byte [c] occurs in [s] ([strings.IndexByte(s, c) >= 0]). *)
Fixpoint occurs (c : ascii) (s : string) : bool :=
  match s with
  | EmptyString => false
  | String c' s' => Ascii.eqb c' c || occurs c s'
  end.

(** [slices.Contains(s, v)]: a linear scan with [==]. *)
Fixpoint Contains (s : list string) (v : string) : bool :=
  match s with
  | [] => false
  | x :: s' => if String.eqb v x then true else Contains s' v
  end.

(** Go's [error] values of this program are all made from a message; [Error]
    is the method of the interface. *)
Record error : Type := errorString { Error : string }.

Module fmt.

(** [fmt.Sprintf] restricted to the verb [%s] with string operands, the only
    verb of the program. *)
Fixpoint Sprintf (format : string) (a : list string) : string :=
  match format with
  | EmptyString => EmptyString
  | String "%" (String "s" rest) =>
      match a with
      | x :: a' => x +:+ Sprintf rest a'
      | [] => "%!s(MISSING)" +:+ Sprintf rest []
      end
  | String c rest => String c (Sprintf rest a)
  end.

Definition Errorf (format : string) (a : list string) : error :=
  errorString (Sprintf format a).

(** [fmt.Sprintf] for the verb [%v] with [error] operands, which are printed
    by their [Error] method. *)
Fixpoint Sprintf_v (format : string) (a : list error) : string :=
  match format with
  | EmptyString => EmptyString
  | String "%" (String "v" rest) =>
      match a with
      | x :: a' => Error x +:+ Sprintf_v rest a'
      | [] => "%!v(MISSING)" +:+ Sprintf_v rest []
      end
  | String c rest => String c (Sprintf_v rest a)
  end.

Definition Errorf_v (format : string) (a : list error) : error :=
  errorString (Sprintf_v format a).

End fmt.

(** ** The quantity library, as the command sees it *)

Module resource_requests.

(** [ParseQuantity] returns a quantity or an error; [Cmp] returns an [int];
    [AsDec] is the decimal number a quantity stands for. *)
Class Library : Type := {
  Quantity : Type;
  ParseQuantity : string -> Quantity + error;
  Cmp : Quantity -> Quantity -> Z;
  AsDec : Quantity -> Q
}.

(** The result of a three-way comparison as Go reports it. *)
Definition cmp_int (c : comparison) : Z :=
  match c with
  | Lt => -1
  | Eq => 0
  | Gt => 1
  end.

(** The documented contract of [Cmp]: -1, 0 or 1 as the receiver is less
    than, equal to or greater than the argument, numerically. *)
Definition CmpNumeric (L : Library) : Prop :=
  forall a b : Quantity, Cmp a b = cmp_int (AsDec a ?= AsDec b)%Q.

End resource_requests.

(** ** API types *)

Module metav1.

Record TypeMeta : Type := { APIVersion : string; Kind : string }.

Record ObjectMeta : Type := { Name : string; Namespace : string }.

Definition DryRunAll : string := "All".

(** The fields of [CreateOptions] that the command sets; a nil slice is the
    empty list. *)
Record CreateOptions : Type := {
  DryRun : list string;
  FieldManager : string;
  FieldValidation : string
}.

End metav1.

Module corev1.

(** [SchemeGroupVersion.String()]: the core group is the empty group. *)
Definition SchemeGroupVersion_String : string := "v1".

Definition ResourceName : Type := string.

Definition ResourceStorage : ResourceName := "storage".

Definition PersistentVolumeAccessMode : Type := string.

Section Types.
Context {L : resource_requests.Library}.

(** [ResourceList] is [map[ResourceName]resource.Quantity]; the nil map is
    the empty map. *)
Record VolumeResourceRequirements : Type := {
  Limits : gmap string resource_requests.Quantity;
  Requests : gmap string resource_requests.Quantity
}.

(** The fields of the spec that the command can set. A nil slice is the
    empty list, a nil pointer is [None]. *)
Record PersistentVolumeClaimSpec : Type := {
  AccessModes : list PersistentVolumeAccessMode;
  Resources : VolumeResourceRequirements;
  StorageClassName : option string
}.

Record PersistentVolumeClaim : Type := {
  TypeMeta : metav1.TypeMeta;
  ObjectMeta : metav1.ObjectMeta;
  Spec : PersistentVolumeClaimSpec
}.

End Types.

End corev1.

(** ** The command *)

(** The fields of the options that [Validate] and the builder read. *)
Record CreatePersistentVolumeClaimOptions : Type := {
  Name : string;
  Namespace : string;
  StorageRequest : string;
  StorageLimit : string;
  StorageClassName : string;
  AccessModes : string;
  EnforceNamespace : bool
}.

Definition validModes : list string :=
  ["ReadOnlyMany"; "ReadWriteMany"; "ReadWriteOnce"].

(** The [range] loop of [Validate]: the first token that is not a valid mode
    ends the loop with its error. *)
Fixpoint Validate_range (aml : list string) : option error :=
  match aml with
  | [] => None
  | am :: aml' =>
      if negb (Contains validModes am)
      then Some (fmt.Errorf "provided access mode %s is invalid" [am])
      else Validate_range aml'
  end.

Definition Validate (o : CreatePersistentVolumeClaimOptions) : option error :=
  if len (Name o) =? 0 then
    Some (fmt.Errorf "name must be specified" [])
  else if (len (StorageRequest o) =? 0) && (len (StorageRequest o) =? 0) then
    Some (fmt.Errorf "storage-request must be specified" [])
  else if negb (len (AccessModes o) =? 0) then
    Validate_range (Split (AccessModes o) ",")
  else None.

Section Builder.
Context {L : resource_requests.Library}.
Import resource_requests.

Definition parseAccessModes (o : CreatePersistentVolumeClaimOptions)
  : list corev1.PersistentVolumeAccessMode :=
  let aml := Split (AccessModes o) "," in
  fold_left (fun accessModes am => (accessModes ++ [am])%list) aml [].

Definition parseResources (o : CreatePersistentVolumeClaimOptions)
  : corev1.VolumeResourceRequirements * option error :=
  let vrr := {| corev1.Limits := ∅; corev1.Requests := ∅ |} in
  match ParseQuantity (StorageRequest o) with
  | inr err => (vrr, Some err)
  | inl rr =>
      let vrr := {| corev1.Limits := corev1.Limits vrr;
                    corev1.Requests := {[ corev1.ResourceStorage := rr ]} |} in
      if negb (len (StorageLimit o) =? 0) then
        match ParseQuantity (StorageLimit o) with
        | inr err => (vrr, Some err)
        | inl rl =>
            if Cmp rl rr <? 1 then
              (vrr, Some (fmt.Errorf
                 "Resource limit is the same/less than the resource request" []))
            else
              ({| corev1.Limits := {[ corev1.ResourceStorage := rl ]};
                  corev1.Requests := corev1.Requests vrr |}, None)
        end
      else (vrr, None)
  end.

(** The result is Go's pair of a pointer (nil is [None]) and an error (nil
    is [None]). *)
Definition createPersistentVolumeClaim (o : CreatePersistentVolumeClaimOptions)
  : option corev1.PersistentVolumeClaim * option error :=
  let namespace := if EnforceNamespace o then Namespace o else "" in
  let typeMeta := {| metav1.APIVersion := corev1.SchemeGroupVersion_String;
                     metav1.Kind := "PersistentVolumeClaim" |} in
  let objectMeta := {| metav1.Name := Name o; metav1.Namespace := namespace |} in
  match parseResources o with
  | (_, Some err) => (None, Some err)
  | (ps, None) =>
      let accessModes :=
        if negb (len (AccessModes o) =? 0) then parseAccessModes o else [] in
      let storageClassName :=
        if negb (len (StorageClassName o) =? 0)
        then Some (StorageClassName o) else None in
      (Some {| corev1.TypeMeta := typeMeta;
               corev1.ObjectMeta := objectMeta;
               corev1.Spec := {| corev1.AccessModes := accessModes;
                                 corev1.Resources := ps;
                                 corev1.StorageClassName := storageClassName |} |},
       None)
  end.

End Builder.

(** ** A small instance of the quantity interface

    Whole numbers of base units written in decimal, with an optional binary
    suffix (Ki, Mi, Gi, Ti) or decimal suffix (M, G, T).  It is used to run the
    command on the values of its help text and of its tests. *)

Module IntegerQuantities.

Definition digit (c : ascii) : option Z :=
  let n := Z.of_nat (nat_of_ascii c) in
  if (48 <=? n) && (n <=? 57) then Some (n - 48) else None.

(** Reads the leading digits of [s]; [acc] is the number read so far, [None]
    before the first digit. *)
Fixpoint number (s : string) (acc : option Z) : option Z * string :=
  match s with
  | EmptyString => (acc, EmptyString)
  | String c s' =>
      match digit c with
      | Some d => number s' (Some (10 * default 0 acc + d))
      | None => (acc, s)
      end
  end.

Definition suffixes : list (string * Z) :=
  [("", 1); ("Ki", 2 ^ 10); ("Mi", 2 ^ 20); ("Gi", 2 ^ 30); ("Ti", 2 ^ 40);
   ("M", 10 ^ 6); ("G", 10 ^ 9); ("T", 10 ^ 12)].

Fixpoint interpret (table : list (string * Z)) (suf : string) : option Z :=
  match table with
  | [] => None
  | (name, factor) :: table' =>
      if String.eqb suf name then Some factor else interpret table' suf
  end.

Definition ParseQuantity (str : string) : Z + error :=
  match number str None with
  | (None, _) => inr (errorString "quantities must match the regular expression")
  | (Some n, suf) =>
      match interpret suffixes suf with
      | Some factor => inl (n * factor)
      | None => inr (errorString "unable to parse quantity's suffix")
      end
  end.

Definition lib : resource_requests.Library := {|
  resource_requests.Quantity := Z;
  resource_requests.ParseQuantity := ParseQuantity;
  resource_requests.Cmp := fun a b => resource_requests.cmp_int (a ?= b);
  resource_requests.AsDec := inject_Z
|}.

End IntegerQuantities.

(** The error of [Validate] for the token [am], written out. *)
Definition invalid_mode (am : string) : error :=
  errorString ("provided access mode " +:+ am +:+ " is invalid").

(** The options of the tests of the command, completed with a namespace. *)
Definition test_options (request limit modes class : string) (enforce : bool)
  : CreatePersistentVolumeClaimOptions :=
  {| Name := "test-pvc"; Namespace := "default";
     StorageRequest := request; StorageLimit := limit;
     StorageClassName := class; AccessModes := modes;
     EnforceNamespace := enforce |}.

(** ** Running the command *)

(** [strings.Count(s, substr)] for a [substr] of one byte. *)
Fixpoint Count (s : string) (c : ascii) : nat :=
  match s with
  | EmptyString => 0%nat
  | String c' s' => if Ascii.eqb c' c then S (Count s' c) else Count s' c
  end.

Module cmdutil.

Inductive DryRunStrategy : Type :=
  | DryRunNone
  | DryRunClient
  | DryRunServer.

Definition DryRunStrategy_eqb (a b : DryRunStrategy) : bool :=
  match a, b with
  | DryRunNone, DryRunNone => true
  | DryRunClient, DryRunClient => true
  | DryRunServer, DryRunServer => true
  | _, _ => false
  end.

End cmdutil.

Section Runner.
Context {L : resource_requests.Library}.

(** The options as [Run] reads them: the fields above and those that only
    [Run] uses.  [Client] stands for
    [Client.PersistentVolumeClaims(namespace).Create(ctx, pv, createOptions)]. *)
Record CreatePersistentVolumeClaimRunOptions : Type := {
  options :> CreatePersistentVolumeClaimOptions;
  CreateAnnotation : bool;
  DryRunStrategy : cmdutil.DryRunStrategy;
  FieldManager : string;
  ValidationDirective : string;
  Client : string -> corev1.PersistentVolumeClaim -> metav1.CreateOptions ->
           corev1.PersistentVolumeClaim + error;
  PrintObj : corev1.PersistentVolumeClaim -> option error
}.

(** The calls [Run] makes to its collaborators, with their arguments. *)
Inductive call : Type :=
  | call_CreateOrUpdateAnnotation (createAnnotation : bool)
      (pv : corev1.PersistentVolumeClaim)
  | call_Create (namespace : string) (pv : corev1.PersistentVolumeClaim)
      (createOptions : metav1.CreateOptions)
  | call_PrintObj (pv : corev1.PersistentVolumeClaim).

(** [util.CreateOrUpdateAnnotation(createAnnotation, obj, codec)] updates the
    object in place and returns an error: here it returns the object after the
    call with the error. *)
Variable CreateOrUpdateAnnotation :
  bool -> corev1.PersistentVolumeClaim ->
  corev1.PersistentVolumeClaim * option error.

(** [Run] returns the calls it made, in order, and its error.  The builder
    never returns a nil claim with a nil error, so the last case is not
    reached. *)
Definition Run (o : CreatePersistentVolumeClaimRunOptions)
  : list call * option error :=
  match createPersistentVolumeClaim o with
  | (_, Some err) => ([], Some err)
  | (Some pv, None) =>
      let annotate := call_CreateOrUpdateAnnotation (CreateAnnotation o) pv in
      match CreateOrUpdateAnnotation (CreateAnnotation o) pv with
      | (_, Some err) => ([annotate], Some err)
      | (pv, None) =>
          if negb (cmdutil.DryRunStrategy_eqb (DryRunStrategy o)
                     cmdutil.DryRunClient) then
            let createOptions :=
              {| metav1.DryRun := []; metav1.FieldManager := "";
                 metav1.FieldValidation := "" |} in
            let createOptions :=
              if negb (String.eqb (FieldManager o) "") then
                {| metav1.DryRun := metav1.DryRun createOptions;
                   metav1.FieldManager := FieldManager o;
                   metav1.FieldValidation :=
                     metav1.FieldValidation createOptions |}
              else createOptions in
            let createOptions :=
              {| metav1.DryRun := metav1.DryRun createOptions;
                 metav1.FieldManager := metav1.FieldManager createOptions;
                 metav1.FieldValidation := ValidationDirective o |} in
            let createOptions :=
              if cmdutil.DryRunStrategy_eqb (DryRunStrategy o)
                   cmdutil.DryRunServer then
                {| metav1.DryRun := [metav1.DryRunAll];
                   metav1.FieldManager := metav1.FieldManager createOptions;
                   metav1.FieldValidation :=
                     metav1.FieldValidation createOptions |}
              else createOptions in
            let create := call_Create (Namespace o) pv createOptions in
            match Client o (Namespace o) pv createOptions with
            | inr err =>
                ([annotate; create],
                 Some (fmt.Errorf_v
                         "failed to create persistentVolumeClaim %v" [err]))
            | inl pv => ([annotate; create; call_PrintObj pv], PrintObj o pv)
            end
          else ([annotate; call_PrintObj pv], PrintObj o pv)
      end
  | (None, None) => ([], None)
  end.

End Runner.

(** Collaborators for running the command on examples: no annotation is
    added, the server answers with the claim it was sent or with [failure],
    and printing succeeds. *)
Definition test_annotation {L : resource_requests.Library}
    (createAnnotation : bool) (pv : corev1.PersistentVolumeClaim)
  : corev1.PersistentVolumeClaim * option error := (pv, None).

Definition test_run_options {L : resource_requests.Library}
    (o : CreatePersistentVolumeClaimOptions)
    (strategy : cmdutil.DryRunStrategy) (failure : option error)
  : CreatePersistentVolumeClaimRunOptions :=
  {| options := o; CreateAnnotation := false; DryRunStrategy := strategy;
     FieldManager := "kubectl-create"; ValidationDirective := "Strict";
     Client := fun _ pv _ =>
       match failure with Some err => inr err | None => inl pv end;
     PrintObj := fun _ => None |}.

(** * Properties *)

(** ** Strings *)

Lemma len_eqb_0 (s : string) : (len s =? 0) = true <-> s = "".
Proof.
  unfold len. destruct s as [|c s]; simpl.
  - split; reflexivity.
  - split; discriminate.
Qed.

Lemma len_eqb_0_false (s : string) : (len s =? 0) = false <-> s <> "".
Proof.
  rewrite <- len_eqb_0. destruct (len s =? 0); split; congruence.
Qed.

Lemma Split_not_nil (s : string) (sep : ascii) : Split s sep <> [].
Proof.
  induction s as [|c s IH]; simpl; [discriminate|].
  destruct (Ascii.eqb c sep); [discriminate|].
  destruct (Split s sep); discriminate.
Qed.

(** Joining the tokens with the separator gives the string back. *)
Lemma concat_Split (s : string) (sep : ascii) :
  String.concat (String sep "") (Split s sep) = s.
Proof.
  induction s as [|c s IH]; simpl; [reflexivity|].
  destruct (Ascii.eqb_spec c sep) as [->|Hne].
  - pose proof (Split_not_nil s sep) as Hnil.
    destruct (Split s sep) as [|tok toks]; [contradiction|].
    simpl in *. now rewrite IH.
  - pose proof (Split_not_nil s sep) as Hnil.
    destruct (Split s sep) as [|tok toks]; [contradiction|].
    simpl in *. destruct toks; simpl in *; now rewrite <- IH.
Qed.

(** No token contains the separator. *)
Lemma Split_no_sep (s : string) (sep : ascii) (tok : string) :
  In tok (Split s sep) -> occurs sep tok = false.
Proof.
  revert tok. induction s as [|c s IH]; simpl; intros tok Hin.
  - destruct Hin as [<-|[]]. reflexivity.
  - destruct (Ascii.eqb c sep) eqn:Hc.
    + destruct Hin as [<-|Hin]; [reflexivity | now apply IH].
    + pose proof (Split_not_nil s sep) as Hnil.
      destruct (Split s sep) as [|t toks]; [contradiction|].
      destruct Hin as [<-|Hin].
      * simpl. rewrite Hc. apply IH. now left.
      * apply IH. now right.
Qed.

Lemma Contains_In (l : list string) (v : string) :
  Contains l v = true <-> In v l.
Proof.
  induction l as [|x l IH]; simpl.
  - split; [discriminate | contradiction].
  - destruct (String.eqb_spec v x) as [->|Hne].
    + split; auto.
    + rewrite IH. split; [auto | intros [H|H]; congruence].
Qed.

Lemma Contains_not_In (l : list string) (v : string) :
  Contains l v = false <-> ~ In v l.
Proof.
  rewrite <- Contains_In. destruct (Contains l v); split; congruence.
Qed.

(** ** Validate *)

Lemma Errorf_invalid_mode (am : string) :
  fmt.Errorf "provided access mode %s is invalid" [am] = invalid_mode am.
Proof.
  reflexivity.
Qed.

Lemma Validate_range_None (aml : list string) :
  Validate_range aml = None <-> Forall (fun am => In am validModes) aml.
Proof.
  induction aml as [|am aml IH]; cbn [Validate_range].
  - split; auto.
  - destruct (Contains validModes am) eqn:Hc; cbn [negb].
    + apply Contains_In in Hc. rewrite IH. split.
      * intros H. now constructor.
      * intros H. now inversion H.
    + apply Contains_not_In in Hc. split; [discriminate|].
      intros H. inversion H. contradiction.
Qed.

(** The loop stops at the first token outside the valid modes. *)
Lemma Validate_range_first (pre post : list string) (am : string) :
  Forall (fun t => In t validModes) pre -> ~ In am validModes ->
  Validate_range (pre ++ am :: post) = Some (invalid_mode am).
Proof.
  intros Hpre Ham. induction Hpre as [|t pre Ht Hpre IH].
  - cbn [app Validate_range]. apply Contains_not_In in Ham. rewrite Ham.
    cbn [negb]. now rewrite Errorf_invalid_mode.
  - cbn [app Validate_range]. apply Contains_In in Ht. rewrite Ht. exact IH.
Qed.

(** A list with a token outside the valid modes has a first one. *)
Lemma first_invalid (aml : list string) :
  ~ Forall (fun t => In t validModes) aml ->
  exists pre am post, aml = (pre ++ am :: post)%list /\
    Forall (fun t => In t validModes) pre /\ ~ In am validModes.
Proof.
  induction aml as [|t aml IH]; intros Hn.
  - exfalso. apply Hn. constructor.
  - destruct (Contains validModes t) eqn:Hc.
    + apply Contains_In in Hc.
      destruct IH as (pre & am & post & -> & Hpre & Ham).
      { intros H. apply Hn. now constructor. }
      exists (t :: pre), am, post. repeat split; auto.
    + apply Contains_not_In in Hc. exists [], t, aml. repeat split; auto.
Qed.

Lemma Validate_range_error (aml : list string) (err : error) :
  Validate_range aml = Some err ->
  exists am, In am aml /\ ~ In am validModes /\ err = invalid_mode am.
Proof.
  induction aml as [|t aml IH]; cbn [Validate_range]; [discriminate|].
  destruct (Contains validModes t) eqn:Hc; cbn [negb].
  - intros H. destruct (IH H) as (am & Hin & Ham & ->). exists am.
    split; [now right | auto].
  - intros [= <-]. apply Contains_not_In in Hc. exists t.
    rewrite Errorf_invalid_mode. split; [now left | auto].
Qed.

(** Once the name and the storage request are there, the access modes decide. *)
Lemma Validate_modes (o : CreatePersistentVolumeClaimOptions) :
  Name o <> "" -> StorageRequest o <> "" -> AccessModes o <> "" ->
  Validate o = Validate_range (Split (AccessModes o) ",").
Proof.
  intros Hn Hr Ha. unfold Validate.
  apply len_eqb_0_false in Hn, Hr, Ha. now rewrite Hn, Hr, Ha.
Qed.

(** What [Validate] accepts, in full. *)
Lemma Validate_None (o : CreatePersistentVolumeClaimOptions) :
  Validate o = None <->
  Name o <> "" /\ StorageRequest o <> "" /\
  (AccessModes o = "" \/
   Forall (fun am => In am validModes) (Split (AccessModes o) ",")).
Proof.
  unfold Validate.
  destruct (len (Name o) =? 0) eqn:Hn.
  { apply len_eqb_0 in Hn. split; [discriminate | tauto]. }
  destruct (len (StorageRequest o) =? 0) eqn:Hr; cbn [andb].
  { apply len_eqb_0 in Hr. split; [discriminate | tauto]. }
  apply len_eqb_0_false in Hn, Hr.
  destruct (len (AccessModes o) =? 0) eqn:Ha; cbn [negb].
  - apply len_eqb_0 in Ha. tauto.
  - apply len_eqb_0_false in Ha. rewrite Validate_range_None. tauto.
Qed.

(** C5: an empty name is rejected with "name must be specified", whatever the
    other fields hold. *)
Theorem Validate_empty_name (o : CreatePersistentVolumeClaimOptions) :
  Name o = "" ->
  Validate o = Some (errorString "name must be specified").
Proof.
  intros Hn. unfold Validate. rewrite Hn. reflexivity.
Qed.

Lemma Validate_empty_name_witness :
  Validate {| Name := ""; Namespace := "kube-system"; StorageRequest := "";
              StorageLimit := "1Gi"; StorageClassName := "fast";
              AccessModes := "ReadWriteBoth,"; EnforceNamespace := true |}
  = Some (errorString "name must be specified").
Proof.
  apply Validate_empty_name. reflexivity.
Defined.

(** C3: with a name given, Validate answers "storage-request must be specified"
    exactly when the storage request is the empty string. *)
Theorem Validate_storage_request (o : CreatePersistentVolumeClaimOptions) :
  Name o <> "" ->
  (Validate o = Some (errorString "storage-request must be specified")
   <-> StorageRequest o = "").
Proof.
  intros Hn. unfold Validate.
  apply len_eqb_0_false in Hn. rewrite Hn.
  destruct (len (StorageRequest o) =? 0) eqn:Hr; cbn [andb].
  - apply len_eqb_0 in Hr. split; [auto | reflexivity].
  - apply len_eqb_0_false in Hr. split; [|contradiction].
    destruct (len (AccessModes o) =? 0); cbn [negb]; [discriminate|].
    intros H. apply Validate_range_error in H.
    destruct H as (am & _ & _ & H). discriminate H.
Qed.

Lemma Validate_storage_request_witness :
  Validate (test_options "" "" "" "" false)
  = Some (errorString "storage-request must be specified")
  <-> StorageRequest (test_options "" "" "" "" false) = "".
Proof.
  apply Validate_storage_request. discriminate.
Defined.

(** C4: with name and storage request given, a non-empty access-modes string
    is accepted exactly when each of its comma-separated tokens is one of
    ReadOnlyMany, ReadWriteMany, ReadWriteOnce; otherwise the error names the
    first token, in input order, that is not. *)
Theorem Validate_access_modes (o : CreatePersistentVolumeClaimOptions) :
  Name o <> "" -> StorageRequest o <> "" -> AccessModes o <> "" ->
  let aml := Split (AccessModes o) "," in
  let valid := fun am =>
    am = "ReadOnlyMany" \/ am = "ReadWriteMany" \/ am = "ReadWriteOnce" in
  (Validate o = None <-> Forall valid aml) /\
  (~ Forall valid aml ->
   exists pre am post, aml = (pre ++ am :: post)%list /\
     Forall valid pre /\ ~ valid am /\
     Validate o =
       Some (errorString ("provided access mode " +:+ am +:+ " is invalid"))).
Proof.
  intros Hn Hr Ha aml valid.
  assert (Hv : forall am, valid am <-> In am validModes).
  { intros am. unfold valid, validModes. simpl.
    split; intros H; intuition congruence. }
  assert (HF : forall l, Forall valid l <-> Forall (fun t => In t validModes) l).
  { intros l. split; intros H; (eapply List.Forall_impl; [|exact H]);
      intros a; apply Hv. }
  rewrite Validate_modes by assumption. fold aml. split.
  - rewrite HF. apply Validate_range_None.
  - intros Hbad. rewrite HF in Hbad.
    destruct (first_invalid aml Hbad) as (pre & am & post & E & Hpre & Ham).
    exists pre, am, post. rewrite HF, Hv. repeat split; auto.
    rewrite E. now apply Validate_range_first.
Qed.

Lemma Validate_access_modes_witness :
  let o := test_options "5Gi" "" "ReadWriteOnce,ReadWriteBoth,Nope" "" false in
  let aml := Split (AccessModes o) "," in
  let valid := fun am =>
    am = "ReadOnlyMany" \/ am = "ReadWriteMany" \/ am = "ReadWriteOnce" in
  (Validate o = None <-> Forall valid aml) /\
  (~ Forall valid aml ->
   exists pre am post, aml = (pre ++ am :: post)%list /\
     Forall valid pre /\ ~ valid am /\
     Validate o =
       Some (errorString ("provided access mode " +:+ am +:+ " is invalid"))).
Proof.
  intros o. apply (Validate_access_modes o); discriminate.
Defined.

Example Validate_ReadWriteBoth :
  Validate (test_options "5Gi" "" "ReadWriteBoth" "" false)
  = Some (errorString "provided access mode ReadWriteBoth is invalid").
Proof. reflexivity. Qed.

Example Validate_second_token :
  Validate (test_options "5Gi" "" "ReadWriteOnce,ReadWriteBoth,Nope" "" false)
  = Some (errorString "provided access mode ReadWriteBoth is invalid").
Proof. reflexivity. Qed.

Example Validate_all_modes :
  Validate (test_options "5Gi" "" "ReadWriteOnce,ReadOnlyMany,ReadWriteMany,ReadWriteOnce" "" false)
  = None.
Proof. reflexivity. Qed.

(** The tokens of [s ++ sep ++ t] are those of [s] followed by those of [t]. *)
Lemma Split_app (s t : string) (sep : ascii) :
  Split (s +:+ String sep t) sep = (Split s sep ++ Split t sep)%list.
Proof.
  induction s as [|c s IH]; simpl.
  - now rewrite Ascii.eqb_refl.
  - destruct (Ascii.eqb c sep); rewrite IH; [reflexivity|].
    pose proof (Split_not_nil s sep) as Hnil.
    destruct (Split s sep); [contradiction | reflexivity].
Qed.

Lemma Split_trailing_sep (s : string) (sep : ascii) :
  In "" (Split (s +:+ String sep "") sep).
Proof.
  rewrite Split_app. apply in_or_app. right. now left.
Qed.

Lemma Split_consecutive_sep (s t : string) (sep : ascii) :
  In "" (Split (s +:+ String sep (String sep t)) sep).
Proof.
  rewrite Split_app. apply in_or_app. right. simpl.
  rewrite Ascii.eqb_refl. now left.
Qed.

(** C10: a non-empty access-modes string with an empty token (a trailing
    comma, two commas in a row) is rejected; with name and storage request
    given, the error is the access-mode error of a token of the input that is
    not a valid mode. *)
Theorem Validate_empty_token (o : CreatePersistentVolumeClaimOptions) :
  AccessModes o <> "" ->
  In "" (Split (AccessModes o) ",") ->
  (exists err, Validate o = Some err) /\
  (Name o <> "" -> StorageRequest o <> "" ->
   exists am, In am (Split (AccessModes o) ",") /\ ~ In am validModes /\
     Validate o =
       Some (errorString ("provided access mode " +:+ am +:+ " is invalid"))).
Proof.
  intros Ha Hin.
  assert (Hrange : exists err,
             Validate_range (Split (AccessModes o) ",") = Some err).
  { destruct (Validate_range (Split (AccessModes o) ",")) as [err|] eqn:E;
      [now exists err|].
    apply Validate_range_None in E. rewrite List.Forall_forall in E.
    specialize (E "" Hin). simpl in E. intuition discriminate. }
  split.
  - unfold Validate.
    destruct (len (Name o) =? 0); [eauto|].
    destruct (len (StorageRequest o) =? 0); cbn [andb]; [eauto|].
    apply len_eqb_0_false in Ha. rewrite Ha. exact Hrange.
  - intros Hn Hr. rewrite Validate_modes by assumption.
    destruct Hrange as [err E]. rewrite E.
    apply Validate_range_error in E. destruct E as (am & H1 & H2 & ->).
    exists am. auto.
Qed.

Lemma Validate_empty_token_witness :
  let o := test_options "5Gi" "" "ReadWriteOnce," "" false in
  (exists err, Validate o = Some err) /\
  (Name o <> "" -> StorageRequest o <> "" ->
   exists am, In am (Split (AccessModes o) ",") /\ ~ In am validModes /\
     Validate o =
       Some (errorString ("provided access mode " +:+ am +:+ " is invalid"))).
Proof.
  intros o. apply (Validate_empty_token o).
  - discriminate.
  - simpl. right. left. reflexivity.
Defined.

Example Validate_trailing_comma :
  Validate (test_options "5Gi" "" "ReadWriteOnce," "" false)
  = Some (errorString "provided access mode  is invalid").
Proof. reflexivity. Qed.

Example Validate_two_commas :
  Validate (test_options "5Gi" "" "ReadWriteOnce,,ReadOnlyMany" "" false)
  = Some (errorString "provided access mode  is invalid").
Proof. reflexivity. Qed.

(** ** The builder *)

(** The integer instance meets the contract of [Cmp]. *)
Lemma IntegerQuantities_CmpNumeric :
  resource_requests.CmpNumeric IntegerQuantities.lib.
Proof.
  intros a b. simpl. unfold Qcompare. simpl. now rewrite !Z.mul_1_r.
Qed.

Section BuilderProperties.
Context {L : resource_requests.Library}.
Import resource_requests.

Lemma Cmp_not_greater (HL : CmpNumeric L) (a b : Quantity) :
  (Cmp a b <? 1) = true <-> (AsDec a <= AsDec b)%Q.
Proof.
  rewrite HL, Qle_alt.
  destruct (AsDec a ?= AsDec b)%Q; unfold cmp_int, Z.ltb; simpl;
    split; congruence.
Qed.

Lemma Cmp_greater (HL : CmpNumeric L) (a b : Quantity) :
  (Cmp a b <? 1) = false <-> (AsDec b < AsDec a)%Q.
Proof.
  rewrite HL, Qlt_alt, <- (Qcompare_antisym (AsDec a) (AsDec b)).
  destruct (AsDec a ?= AsDec b)%Q; unfold cmp_int, Z.ltb; simpl;
    split; congruence.
Qed.

Lemma parseAccessModes_Split (o : CreatePersistentVolumeClaimOptions) :
  parseAccessModes o = Split (AccessModes o) ",".
Proof.
  unfold parseAccessModes.
  assert (H : forall (l acc : list string),
             fold_left (fun accessModes am => (accessModes ++ [am])%list) l acc
             = (acc ++ l)%list).
  { induction l as [|x l IH]; intros acc; simpl.
    - now rewrite app_nil_r.
    - rewrite IH, <- app_assoc. reflexivity. }
  apply H.
Qed.

(** [parseResources] case by case. *)
Lemma parseResources_request_error (o : CreatePersistentVolumeClaimOptions)
    (e : error) :
  ParseQuantity (StorageRequest o) = inr e ->
  parseResources o = ({| corev1.Limits := ∅; corev1.Requests := ∅ |}, Some e).
Proof.
  intros H. unfold parseResources. now rewrite H.
Qed.

Lemma parseResources_no_limit (o : CreatePersistentVolumeClaimOptions)
    (rr : Quantity) :
  ParseQuantity (StorageRequest o) = inl rr -> StorageLimit o = "" ->
  parseResources o =
    ({| corev1.Limits := ∅;
        corev1.Requests := {[ corev1.ResourceStorage := rr ]} |}, None).
Proof.
  intros H Hl. unfold parseResources. now rewrite H, Hl.
Qed.

Lemma parseResources_limit_error (o : CreatePersistentVolumeClaimOptions)
    (rr : Quantity) (e : error) :
  ParseQuantity (StorageRequest o) = inl rr -> StorageLimit o <> "" ->
  ParseQuantity (StorageLimit o) = inr e ->
  parseResources o =
    ({| corev1.Limits := ∅;
        corev1.Requests := {[ corev1.ResourceStorage := rr ]} |}, Some e).
Proof.
  intros H Hl He. unfold parseResources.
  apply len_eqb_0_false in Hl. now rewrite H, Hl, He.
Qed.

Lemma parseResources_limit_low (HL : CmpNumeric L)
    (o : CreatePersistentVolumeClaimOptions) (rr rl : Quantity) :
  ParseQuantity (StorageRequest o) = inl rr -> StorageLimit o <> "" ->
  ParseQuantity (StorageLimit o) = inl rl ->
  (AsDec rl <= AsDec rr)%Q ->
  parseResources o =
    ({| corev1.Limits := ∅;
        corev1.Requests := {[ corev1.ResourceStorage := rr ]} |},
     Some (errorString
             "Resource limit is the same/less than the resource request")).
Proof.
  intros H Hl Hp Hle. unfold parseResources.
  apply len_eqb_0_false in Hl. apply (Cmp_not_greater HL) in Hle.
  now rewrite H, Hl, Hp, Hle.
Qed.

Lemma parseResources_limit_high (HL : CmpNumeric L)
    (o : CreatePersistentVolumeClaimOptions) (rr rl : Quantity) :
  ParseQuantity (StorageRequest o) = inl rr -> StorageLimit o <> "" ->
  ParseQuantity (StorageLimit o) = inl rl ->
  (AsDec rr < AsDec rl)%Q ->
  parseResources o =
    ({| corev1.Limits := {[ corev1.ResourceStorage := rl ]};
        corev1.Requests := {[ corev1.ResourceStorage := rr ]} |}, None).
Proof.
  intros H Hl Hp Hlt. unfold parseResources.
  apply len_eqb_0_false in Hl. apply (Cmp_greater HL) in Hlt.
  now rewrite H, Hl, Hp, Hlt.
Qed.

(** The builder fails exactly when [parseResources] does, with its error. *)
Lemma createPersistentVolumeClaim_error
    (o : CreatePersistentVolumeClaimOptions) :
  snd (createPersistentVolumeClaim o) = snd (parseResources o).
Proof.
  unfold createPersistentVolumeClaim.
  destruct (parseResources o) as [ps [err|]]; reflexivity.
Qed.

(** Exactly one of the two results is nil. *)
Lemma createPersistentVolumeClaim_result
    (o : CreatePersistentVolumeClaimOptions) :
  (exists pvc, createPersistentVolumeClaim o = (Some pvc, None)) \/
  (exists err, createPersistentVolumeClaim o = (None, Some err)).
Proof.
  unfold createPersistentVolumeClaim.
  destruct (parseResources o) as [ps [err|]]; eauto.
Qed.

Lemma createPersistentVolumeClaim_failed
    (o : CreatePersistentVolumeClaimOptions) (ps : corev1.VolumeResourceRequirements)
    (err : error) :
  parseResources o = (ps, Some err) ->
  createPersistentVolumeClaim o = (None, Some err).
Proof.
  intros H. unfold createPersistentVolumeClaim. now rewrite H.
Qed.

(** C1: when both strings parse and the limit is not numerically greater than
    the request, whatever the units they were written in, the builder fails
    with the limit-comparison error. *)
Theorem createPersistentVolumeClaim_limit_not_greater (HL : CmpNumeric L)
    (o : CreatePersistentVolumeClaimOptions) (rr rl : Quantity) :
  StorageLimit o <> "" ->
  ParseQuantity (StorageRequest o) = inl rr ->
  ParseQuantity (StorageLimit o) = inl rl ->
  (AsDec rl <= AsDec rr)%Q ->
  let err := errorString
               "Resource limit is the same/less than the resource request" in
  snd (parseResources o) = Some err /\
  createPersistentVolumeClaim o = (None, Some err).
Proof.
  intros Hl Hr Hp Hle err.
  pose proof (parseResources_limit_low HL o rr rl Hr Hl Hp Hle) as E.
  split.
  - now rewrite E.
  - exact (createPersistentVolumeClaim_failed o _ _ E).
Qed.

(** C2: when both strings parse and the limit is numerically greater than the
    request, the builder succeeds; the claim carries the parsed limit under
    limits[storage] and the parsed request under requests[storage]. *)
Theorem createPersistentVolumeClaim_limit_greater (HL : CmpNumeric L)
    (o : CreatePersistentVolumeClaimOptions) (rr rl : Quantity) :
  StorageLimit o <> "" ->
  ParseQuantity (StorageRequest o) = inl rr ->
  ParseQuantity (StorageLimit o) = inl rl ->
  (AsDec rr < AsDec rl)%Q ->
  exists pvc,
    createPersistentVolumeClaim o = (Some pvc, None) /\
    corev1.Resources (corev1.Spec pvc) =
      {| corev1.Limits := {[ corev1.ResourceStorage := rl ]};
         corev1.Requests := {[ corev1.ResourceStorage := rr ]} |} /\
    corev1.Limits (corev1.Resources (corev1.Spec pvc)) !! corev1.ResourceStorage
      = Some rl /\
    corev1.Requests (corev1.Resources (corev1.Spec pvc)) !! corev1.ResourceStorage
      = Some rr.
Proof.
  intros Hl Hr Hp Hlt.
  pose proof (parseResources_limit_high HL o rr rl Hr Hl Hp Hlt) as E.
  unfold createPersistentVolumeClaim. rewrite E.
  eexists. split; [reflexivity|]. cbn [corev1.Spec corev1.Resources].
  split; [reflexivity|]. split; apply lookup_singleton_eq.
Qed.

(** C6: the namespace of a built claim is the namespace of the options when
    EnforceNamespace is set, and the empty string when it is not. *)
Theorem createPersistentVolumeClaim_namespace
    (o : CreatePersistentVolumeClaimOptions) (pvc : corev1.PersistentVolumeClaim) :
  fst (createPersistentVolumeClaim o) = Some pvc ->
  (EnforceNamespace o = true ->
   metav1.Namespace (corev1.ObjectMeta pvc) = Namespace o) /\
  (EnforceNamespace o = false ->
   metav1.Namespace (corev1.ObjectMeta pvc) = "").
Proof.
  unfold createPersistentVolumeClaim.
  destruct (parseResources o) as [ps [err|]]; cbn [fst]; [discriminate|].
  intros [= <-]. cbn [corev1.ObjectMeta metav1.Namespace].
  split; intros ->; reflexivity.
Qed.

(** The failures of the builder are the three cases of [parseResources]. *)
Lemma createPersistentVolumeClaim_error_cases (HL : CmpNumeric L)
    (o : CreatePersistentVolumeClaimOptions) (err : error) :
  snd (createPersistentVolumeClaim o) = Some err ->
  ParseQuantity (StorageRequest o) = inr err \/
  (StorageLimit o <> "" /\ ParseQuantity (StorageLimit o) = inr err) \/
  (StorageLimit o <> "" /\
   exists rr rl, ParseQuantity (StorageRequest o) = inl rr /\
     ParseQuantity (StorageLimit o) = inl rl /\
     (AsDec rl <= AsDec rr)%Q).
Proof.
  rewrite createPersistentVolumeClaim_error. unfold parseResources.
  destruct (ParseQuantity (StorageRequest o)) as [rr|e] eqn:Hr; cbn [snd].
  - destruct (len (StorageLimit o) =? 0) eqn:Hl; cbn [negb snd];
      [discriminate|].
    apply len_eqb_0_false in Hl.
    destruct (ParseQuantity (StorageLimit o)) as [rl|e] eqn:Hp; cbn [snd].
    + destruct (Cmp rl rr <? 1) eqn:Hc; cbn [snd]; [|discriminate].
      intros _. right. right. split; [assumption|].
      exists rr, rl. repeat split. now apply (Cmp_not_greater HL).
    + intros [= ->]. right. left. auto.
  - intros [= ->]. now left.
Qed.

(** C7: when the request does not parse, or the limit does not parse, or the
    limit is not numerically greater than the request, the builder returns an
    error and a nil claim. *)
Theorem createPersistentVolumeClaim_failure (HL : CmpNumeric L)
    (o : CreatePersistentVolumeClaimOptions) :
  (exists e, ParseQuantity (StorageRequest o) = inr e) \/
  (StorageLimit o <> "" /\ exists e, ParseQuantity (StorageLimit o) = inr e) \/
  (StorageLimit o <> "" /\
   exists rr rl, ParseQuantity (StorageRequest o) = inl rr /\
     ParseQuantity (StorageLimit o) = inl rl /\
     ~ (AsDec rr < AsDec rl)%Q) ->
  exists err, createPersistentVolumeClaim o = (None, Some err).
Proof.
  intros [[e He] | [[Hl [e He]] | [Hl (rr & rl & Hr & Hp & Hn)]]].
  - exists e. eapply createPersistentVolumeClaim_failed.
    now apply parseResources_request_error.
  - destruct (ParseQuantity (StorageRequest o)) as [rr|e'] eqn:Hr.
    + exists e. eapply createPersistentVolumeClaim_failed.
      now apply (parseResources_limit_error o rr e).
    + exists e'. eapply createPersistentVolumeClaim_failed.
      now apply parseResources_request_error.
  - eexists. eapply createPersistentVolumeClaim_failed.
    apply (parseResources_limit_low HL o rr rl); auto.
    now apply Qnot_lt_le.
Qed.

(** C8: with a storage request that parses and nothing else supplied, the
    builder succeeds; besides the type and object metadata the claim holds the
    parsed request under requests[storage] and nothing else: nil limits, nil
    access modes, nil storage class name. *)
Theorem createPersistentVolumeClaim_request_only
    (o : CreatePersistentVolumeClaimOptions) (rr : Quantity) :
  ParseQuantity (StorageRequest o) = inl rr ->
  StorageLimit o = "" -> AccessModes o = "" -> StorageClassName o = "" ->
  createPersistentVolumeClaim o =
    (Some {| corev1.TypeMeta :=
               {| metav1.APIVersion := "v1";
                  metav1.Kind := "PersistentVolumeClaim" |};
             corev1.ObjectMeta :=
               {| metav1.Name := Name o;
                  metav1.Namespace :=
                    if EnforceNamespace o then Namespace o else "" |};
             corev1.Spec :=
               {| corev1.AccessModes := [];
                  corev1.Resources :=
                    {| corev1.Limits := ∅;
                       corev1.Requests := {[ corev1.ResourceStorage := rr ]} |};
                  corev1.StorageClassName := None |} |},
     None).
Proof.
  intros Hr Hl Ha Hc. unfold createPersistentVolumeClaim.
  rewrite (parseResources_no_limit o rr Hr Hl), Ha, Hc. reflexivity.
Qed.

(** The resources do not depend on the access modes. *)
Lemma parseResources_AccessModes (o : CreatePersistentVolumeClaimOptions)
    (modes : string) :
  parseResources
    {| Name := Name o; Namespace := Namespace o;
       StorageRequest := StorageRequest o; StorageLimit := StorageLimit o;
       StorageClassName := StorageClassName o; AccessModes := modes;
       EnforceNamespace := EnforceNamespace o |}
  = parseResources o.
Proof. reflexivity. Qed.

(** C9: for a non-empty access-modes string the builder returns the
    comma-separated tokens as they are, in order and with repetitions; it
    succeeds whenever the resources do, whatever the tokens are. *)
Theorem createPersistentVolumeClaim_access_modes
    (o : CreatePersistentVolumeClaimOptions) :
  AccessModes o <> "" ->
  parseAccessModes o = Split (AccessModes o) "," /\
  (snd (parseResources o) = None ->
   exists pvc, createPersistentVolumeClaim o = (Some pvc, None) /\
     corev1.AccessModes (corev1.Spec pvc) = Split (AccessModes o) ",").
Proof.
  intros Ha. split; [apply parseAccessModes_Split|].
  intros Hps. unfold createPersistentVolumeClaim.
  destruct (parseResources o) as [ps [err|]]; [discriminate|].
  apply len_eqb_0_false in Ha. rewrite Ha. cbn [negb].
  eexists. split; [reflexivity|]. apply parseAccessModes_Split.
Qed.

End BuilderProperties.

(** ** The builder on the values of the tests *)

Lemma createPersistentVolumeClaim_limit_not_greater_witness :
  let o := test_options "5Gi" "5120Mi" "" "" false in
  let err := errorString
               "Resource limit is the same/less than the resource request" in
  snd (parseResources (L := IntegerQuantities.lib) o) = Some err /\
  createPersistentVolumeClaim (L := IntegerQuantities.lib) o = (None, Some err).
Proof.
  intros o.
  apply (createPersistentVolumeClaim_limit_not_greater
           (L := IntegerQuantities.lib) IntegerQuantities_CmpNumeric
           o (5 * 2 ^ 30) (5120 * 2 ^ 20)).
  - discriminate.
  - reflexivity.
  - reflexivity.
  - vm_compute. discriminate.
Defined.

Example same_limit_fails :
  createPersistentVolumeClaim (L := IntegerQuantities.lib)
    (test_options "5Gi" "5Gi" "ReadWriteOnce" "" false)
  = (None,
     Some (errorString
             "Resource limit is the same/less than the resource request")).
Proof. reflexivity. Qed.

Example lower_limit_fails :
  createPersistentVolumeClaim (L := IntegerQuantities.lib)
    (test_options "1Gi" "500Mi" "" "" false)
  = (None,
     Some (errorString
             "Resource limit is the same/less than the resource request")).
Proof. reflexivity. Qed.

Lemma createPersistentVolumeClaim_limit_greater_witness :
  let o := test_options "5Gi" "10Gi" "" "" false in
  exists pvc,
    createPersistentVolumeClaim (L := IntegerQuantities.lib) o
      = (Some pvc, None) /\
    corev1.Resources (corev1.Spec pvc) =
      {| corev1.Limits := {[ corev1.ResourceStorage := 10 * 2 ^ 30 ]};
         corev1.Requests := {[ corev1.ResourceStorage := 5 * 2 ^ 30 ]} |} /\
    corev1.Limits (corev1.Resources (corev1.Spec pvc)) !! corev1.ResourceStorage
      = Some (10 * 2 ^ 30) /\
    corev1.Requests (corev1.Resources (corev1.Spec pvc)) !! corev1.ResourceStorage
      = Some (5 * 2 ^ 30).
Proof.
  intros o.
  apply (createPersistentVolumeClaim_limit_greater
           (L := IntegerQuantities.lib) IntegerQuantities_CmpNumeric
           o (5 * 2 ^ 30) (10 * 2 ^ 30)).
  - discriminate.
  - reflexivity.
  - reflexivity.
  - vm_compute. reflexivity.
Defined.

Lemma createPersistentVolumeClaim_namespace_witness :
  let o := test_options "5Gi" "" "" "" true in
  exists pvc,
    fst (createPersistentVolumeClaim (L := IntegerQuantities.lib) o) = Some pvc /\
    (EnforceNamespace o = true ->
     metav1.Namespace (corev1.ObjectMeta pvc) = "default") /\
    (EnforceNamespace o = false ->
     metav1.Namespace (corev1.ObjectMeta pvc) = "").
Proof.
  intros o. eexists. split; [reflexivity|].
  apply (createPersistentVolumeClaim_namespace (L := IntegerQuantities.lib) o).
  reflexivity.
Defined.

Example namespace_not_enforced :
  option_map (fun pvc => metav1.Namespace (corev1.ObjectMeta pvc))
    (fst (createPersistentVolumeClaim (L := IntegerQuantities.lib)
            (test_options "5Gi" "" "" "" false)))
  = Some "".
Proof. reflexivity. Qed.

Lemma createPersistentVolumeClaim_failure_witness :
  exists err,
    createPersistentVolumeClaim (L := IntegerQuantities.lib)
      (test_options "5Gi" "5Gi" "ReadWriteOnce" "" false) = (None, Some err).
Proof.
  apply (createPersistentVolumeClaim_failure
           (L := IntegerQuantities.lib) IntegerQuantities_CmpNumeric).
  right. right. split; [discriminate|].
  exists (5 * 2 ^ 30), (5 * 2 ^ 30).
  split; [reflexivity|]. split; [reflexivity|].
  vm_compute. discriminate.
Defined.

Example bad_request_fails :
  createPersistentVolumeClaim (L := IntegerQuantities.lib)
    (test_options "five" "" "" "" false)
  = (None, Some (errorString "quantities must match the regular expression")).
Proof. reflexivity. Qed.

Example bad_limit_fails :
  createPersistentVolumeClaim (L := IntegerQuantities.lib)
    (test_options "5Gi" "10Gigs" "" "" false)
  = (None, Some (errorString "unable to parse quantity's suffix")).
Proof. reflexivity. Qed.

Lemma createPersistentVolumeClaim_request_only_witness :
  createPersistentVolumeClaim (L := IntegerQuantities.lib)
    (test_options "5Gi" "" "" "" false) =
    (Some {| corev1.TypeMeta :=
               {| metav1.APIVersion := "v1";
                  metav1.Kind := "PersistentVolumeClaim" |};
             corev1.ObjectMeta :=
               {| metav1.Name := "test-pvc"; metav1.Namespace := "" |};
             corev1.Spec :=
               {| corev1.AccessModes := [];
                  corev1.Resources :=
                    {| corev1.Limits := ∅;
                       corev1.Requests :=
                         {[ corev1.ResourceStorage := 5 * 2 ^ 30 ]} |};
                  corev1.StorageClassName := None |} |},
     None).
Proof.
  apply (createPersistentVolumeClaim_request_only
           (L := IntegerQuantities.lib)
           (test_options "5Gi" "" "" "" false) (5 * 2 ^ 30));
    reflexivity.
Defined.

Example storage_class_attached :
  option_map (fun pvc => corev1.StorageClassName (corev1.Spec pvc))
    (fst (createPersistentVolumeClaim (L := IntegerQuantities.lib)
            (test_options "5Gi" "" "" "test-class" false)))
  = Some (Some "test-class").
Proof. reflexivity. Qed.

Lemma createPersistentVolumeClaim_access_modes_witness :
  let o := test_options "5Gi" ""
             "ReadWriteOnce,ReadWriteBoth,,ReadWriteOnce" "" false in
  parseAccessModes o
    = ["ReadWriteOnce"; "ReadWriteBoth"; ""; "ReadWriteOnce"] /\
  (snd (parseResources (L := IntegerQuantities.lib) o) = None ->
   exists pvc,
     createPersistentVolumeClaim (L := IntegerQuantities.lib) o
       = (Some pvc, None) /\
     corev1.AccessModes (corev1.Spec pvc)
       = ["ReadWriteOnce"; "ReadWriteBoth"; ""; "ReadWriteOnce"]).
Proof.
  intros o.
  apply (createPersistentVolumeClaim_access_modes
           (L := IntegerQuantities.lib) o).
  discriminate.
Defined.

(** * Further properties *)

(** ** Validate *)

(** X1: Validate accepts exactly the options with a name, a storage request
    and access modes that are either empty or made of valid modes only. *)
Theorem Validate_accepts (o : CreatePersistentVolumeClaimOptions) :
  Validate o = None <->
  Name o <> "" /\ StorageRequest o <> "" /\
  (AccessModes o = "" \/
   Forall (fun am => am = "ReadOnlyMany" \/ am = "ReadWriteMany" \/
                     am = "ReadWriteOnce")
     (Split (AccessModes o) ",")).
Proof.
  rewrite Validate_None.
  assert (HF : Forall (fun am => In am validModes) (Split (AccessModes o) ",")
               <-> Forall (fun am => am = "ReadOnlyMany" \/
                             am = "ReadWriteMany" \/ am = "ReadWriteOnce")
                     (Split (AccessModes o) ",")).
  { rewrite !List.Forall_forall. unfold validModes. simpl.
    split; intros H am Hin; specialize (H am Hin); intuition congruence. }
  rewrite HF. reflexivity.
Qed.

(** X2: an error of Validate is one of three: the name error, for an empty
    name; the storage-request error, for a name and an empty storage request;
    the access-mode error of a token of the access modes that is not a valid
    mode, for a name and a storage request. *)
Theorem Validate_errors (o : CreatePersistentVolumeClaimOptions) (err : error) :
  Validate o = Some err ->
  (Name o = "" /\ err = errorString "name must be specified") \/
  (Name o <> "" /\ StorageRequest o = "" /\
   err = errorString "storage-request must be specified") \/
  (Name o <> "" /\ StorageRequest o <> "" /\ AccessModes o <> "" /\
   exists am, In am (Split (AccessModes o) ",") /\ ~ In am validModes /\
     err = errorString ("provided access mode " +:+ am +:+ " is invalid")).
Proof.
  unfold Validate.
  destruct (len (Name o) =? 0) eqn:Hn.
  { apply len_eqb_0 in Hn. intros [= <-]. left. auto. }
  destruct (len (StorageRequest o) =? 0) eqn:Hr; cbn [andb].
  { apply len_eqb_0 in Hr. apply len_eqb_0_false in Hn.
    intros [= <-]. right. left. auto. }
  apply len_eqb_0_false in Hn, Hr.
  destruct (len (AccessModes o) =? 0) eqn:Ha; cbn [negb]; [discriminate|].
  apply len_eqb_0_false in Ha. intros H.
  apply Validate_range_error in H. destruct H as (am & Hin & Hbad & ->).
  right. right. repeat split; auto. exists am. auto.
Qed.

Lemma Validate_errors_witness :
  let o := test_options "5Gi" "" "ReadOnlyMany,ReadWriteBoth" "" false in
  let err := errorString "provided access mode ReadWriteBoth is invalid" in
  (Name o = "" /\ err = errorString "name must be specified") \/
  (Name o <> "" /\ StorageRequest o = "" /\
   err = errorString "storage-request must be specified") \/
  (Name o <> "" /\ StorageRequest o <> "" /\ AccessModes o <> "" /\
   exists am, In am (Split (AccessModes o) ",") /\ ~ In am validModes /\
     err = errorString ("provided access mode " +:+ am +:+ " is invalid")).
Proof.
  intros o err. apply (Validate_errors o err). reflexivity.
Defined.

(** X3: Validate reads the name, the storage request and the access modes
    only: the storage limit, the storage class and the namespace are not
    looked at, and no capacity is parsed. *)
Theorem Validate_fields (o o' : CreatePersistentVolumeClaimOptions) :
  Name o = Name o' -> StorageRequest o = StorageRequest o' ->
  AccessModes o = AccessModes o' ->
  Validate o = Validate o'.
Proof.
  intros Hn Hr Ha. unfold Validate. now rewrite Hn, Hr, Ha.
Qed.

Lemma Validate_fields_witness :
  Validate (test_options "five" "" "ReadWriteOnce" "" false)
  = Validate {| Name := "test-pvc"; Namespace := "kube-system";
                StorageRequest := "five"; StorageLimit := "less";
                StorageClassName := "fast"; AccessModes := "ReadWriteOnce";
                EnforceNamespace := true |}.
Proof.
  apply Validate_fields; reflexivity.
Defined.

(** ** Access modes *)

Lemma length_Split (s : string) (sep : ascii) :
  length (Split s sep) = S (Count s sep).
Proof.
  induction s as [|c s IH]; simpl; [reflexivity|].
  destruct (Ascii.eqb c sep); simpl; [now rewrite IH|].
  pose proof (Split_not_nil s sep) as Hnil.
  destruct (Split s sep); [contradiction | exact IH].
Qed.

(** X4: joining the modes of parseAccessModes with commas gives the
    access-modes string back. *)
Theorem parseAccessModes_concat (o : CreatePersistentVolumeClaimOptions) :
  String.concat "," (parseAccessModes o) = AccessModes o.
Proof.
  rewrite parseAccessModes_Split. apply concat_Split.
Qed.

(** X5: parseAccessModes returns one mode more than the string has commas; in
    particular it never returns an empty slice. *)
Theorem parseAccessModes_length (o : CreatePersistentVolumeClaimOptions) :
  length (parseAccessModes o) = S (Count (AccessModes o) ",").
Proof.
  rewrite parseAccessModes_Split. apply length_Split.
Qed.

(** X6: no mode returned by parseAccessModes contains a comma. *)
Theorem parseAccessModes_no_comma (o : CreatePersistentVolumeClaimOptions)
    (am : string) :
  In am (parseAccessModes o) -> occurs "," am = false.
Proof.
  rewrite parseAccessModes_Split. apply Split_no_sep.
Qed.

Lemma parseAccessModes_no_comma_witness :
  occurs "," "ReadWriteMany" = false.
Proof.
  apply (parseAccessModes_no_comma
           (test_options "5Gi" "" "ReadWriteOnce,ReadWriteMany" "" false)).
  simpl. right. left. reflexivity.
Defined.

(** ** The built claim *)

Section ClaimProperties.
Context {L : resource_requests.Library}.
Import resource_requests.

(** The claim that the builder returns, field by field. *)
Lemma createPersistentVolumeClaim_success
    (o : CreatePersistentVolumeClaimOptions) (pvc : corev1.PersistentVolumeClaim) :
  fst (createPersistentVolumeClaim o) = Some pvc ->
  parseResources o = (corev1.Resources (corev1.Spec pvc), None) /\
  corev1.AccessModes (corev1.Spec pvc) =
    (if negb (len (AccessModes o) =? 0) then parseAccessModes o else []) /\
  corev1.StorageClassName (corev1.Spec pvc) =
    (if negb (len (StorageClassName o) =? 0)
     then Some (StorageClassName o) else None).
Proof.
  unfold createPersistentVolumeClaim.
  destruct (parseResources o) as [ps [err|]]; cbn [fst]; [discriminate|].
  intros [= <-]. cbn. auto.
Qed.

(** The successful results of [parseResources]. *)
Lemma parseResources_success (o : CreatePersistentVolumeClaimOptions)
    (vrr : corev1.VolumeResourceRequirements) :
  parseResources o = (vrr, None) ->
  exists rr, ParseQuantity (StorageRequest o) = inl rr /\
    corev1.Requests vrr = {[ corev1.ResourceStorage := rr ]} /\
    ((StorageLimit o = "" /\ corev1.Limits vrr = ∅) \/
     (StorageLimit o <> "" /\
      exists rl, ParseQuantity (StorageLimit o) = inl rl /\
        (Cmp rl rr <? 1) = false /\
        corev1.Limits vrr = {[ corev1.ResourceStorage := rl ]})).
Proof.
  unfold parseResources.
  destruct (ParseQuantity (StorageRequest o)) as [rr|e]; [|discriminate].
  destruct (len (StorageLimit o) =? 0) eqn:Hl; cbn [negb].
  - apply len_eqb_0 in Hl. intros [= <-]. exists rr. cbn. auto.
  - apply len_eqb_0_false in Hl.
    destruct (ParseQuantity (StorageLimit o)) as [rl|e]; [|discriminate].
    destruct (Cmp rl rr <? 1) eqn:Hc; [discriminate|].
    intros [= <-]. exists rr. cbn. repeat split. right.
    split; [assumption|]. exists rl. auto.
Qed.

(** X7: a built claim has a nil access-mode slice exactly when the
    access-modes option is empty. *)
Theorem createPersistentVolumeClaim_no_access_modes
    (o : CreatePersistentVolumeClaimOptions) (pvc : corev1.PersistentVolumeClaim) :
  fst (createPersistentVolumeClaim o) = Some pvc ->
  (corev1.AccessModes (corev1.Spec pvc) = [] <-> AccessModes o = "").
Proof.
  intros H. apply createPersistentVolumeClaim_success in H.
  destruct H as (_ & -> & _).
  destruct (len (AccessModes o) =? 0) eqn:Ha; cbn [negb].
  - apply len_eqb_0 in Ha. tauto.
  - apply len_eqb_0_false in Ha. rewrite parseAccessModes_Split.
    split; [|contradiction]. intros E. now apply Split_not_nil in E.
Qed.

(** X8: a built claim has a nil storage class name when the option is empty,
    and otherwise points to the option's value. *)
Theorem createPersistentVolumeClaim_storage_class
    (o : CreatePersistentVolumeClaimOptions) (pvc : corev1.PersistentVolumeClaim) :
  fst (createPersistentVolumeClaim o) = Some pvc ->
  (StorageClassName o = "" ->
   corev1.StorageClassName (corev1.Spec pvc) = None) /\
  (StorageClassName o <> "" ->
   corev1.StorageClassName (corev1.Spec pvc) = Some (StorageClassName o)).
Proof.
  intros H. apply createPersistentVolumeClaim_success in H.
  destruct H as (_ & _ & ->). split; intros Hc.
  - now rewrite Hc.
  - apply len_eqb_0_false in Hc. now rewrite Hc.
Qed.

(** X9: the requests of a built claim are the one entry storage, holding the
    parsed storage request. *)
Theorem createPersistentVolumeClaim_requests
    (o : CreatePersistentVolumeClaimOptions) (pvc : corev1.PersistentVolumeClaim) :
  fst (createPersistentVolumeClaim o) = Some pvc ->
  exists rr, ParseQuantity (StorageRequest o) = inl rr /\
    corev1.Requests (corev1.Resources (corev1.Spec pvc))
      = {[ corev1.ResourceStorage := rr ]}.
Proof.
  intros H. apply createPersistentVolumeClaim_success in H.
  destruct H as (H & _). apply parseResources_success in H.
  destruct H as (rr & Hr & Hreq & _). eauto.
Qed.

(** X10: an entry in the limits of a built claim is the entry storage; it
    holds the parsed storage limit, and that is numerically greater than the
    request of the claim. *)
Theorem createPersistentVolumeClaim_limits (HL : CmpNumeric L)
    (o : CreatePersistentVolumeClaimOptions) (pvc : corev1.PersistentVolumeClaim)
    (k : string) (rl : Quantity) :
  fst (createPersistentVolumeClaim o) = Some pvc ->
  corev1.Limits (corev1.Resources (corev1.Spec pvc)) !! k = Some rl ->
  k = "storage" /\ StorageLimit o <> "" /\
  ParseQuantity (StorageLimit o) = inl rl /\
  exists rr,
    corev1.Requests (corev1.Resources (corev1.Spec pvc)) !! "storage" = Some rr /\
    (AsDec rr < AsDec rl)%Q.
Proof.
  intros H Hk. apply createPersistentVolumeClaim_success in H.
  destruct H as (H & _). apply parseResources_success in H.
  destruct H as (rr & Hr & Hreq & [[_ Hlim] | [Hl (rl' & Hp & Hc & Hlim)]]);
    rewrite Hlim in Hk.
  - rewrite lookup_empty in Hk. discriminate.
  - apply lookup_singleton_Some in Hk. destruct Hk as [<- <-].
    repeat split; auto. exists rr. split.
    + rewrite Hreq. apply lookup_singleton_eq.
    + now apply (Cmp_greater HL).
Qed.

(** X11: a built claim has nil limits exactly when the storage-limit option
    is empty. *)
Theorem createPersistentVolumeClaim_no_limits
    (o : CreatePersistentVolumeClaimOptions) (pvc : corev1.PersistentVolumeClaim) :
  fst (createPersistentVolumeClaim o) = Some pvc ->
  (corev1.Limits (corev1.Resources (corev1.Spec pvc)) = ∅ <-> StorageLimit o = "").
Proof.
  intros H. apply createPersistentVolumeClaim_success in H.
  destruct H as (H & _). apply parseResources_success in H.
  destruct H as (rr & _ & _ & [[Hl Hlim] | [Hl (rl & _ & _ & Hlim)]]);
    rewrite Hlim.
  - tauto.
  - split; [|contradiction]. intros E.
    apply (f_equal (fun m => m !! corev1.ResourceStorage)) in E.
    rewrite lookup_singleton_eq, lookup_empty in E. discriminate.
Qed.

(** ** The errors of the builder *)

(** X12: an error of the builder is the parse error of the storage request,
    or, with the request parsed and a limit given, the parse error of the
    limit or the limit-comparison error for a limit not numerically greater
    than the request; parse errors are returned as they are. *)
Theorem createPersistentVolumeClaim_errors (HL : CmpNumeric L)
    (o : CreatePersistentVolumeClaimOptions) (err : error) :
  snd (createPersistentVolumeClaim o) = Some err ->
  ParseQuantity (StorageRequest o) = inr err \/
  (exists rr, ParseQuantity (StorageRequest o) = inl rr /\
     StorageLimit o <> "" /\
     (ParseQuantity (StorageLimit o) = inr err \/
      exists rl, ParseQuantity (StorageLimit o) = inl rl /\
        (AsDec rl <= AsDec rr)%Q /\
        err = errorString
                "Resource limit is the same/less than the resource request")).
Proof.
  rewrite createPersistentVolumeClaim_error. unfold parseResources.
  destruct (ParseQuantity (StorageRequest o)) as [rr|e] eqn:Hr; cbn [snd].
  - destruct (len (StorageLimit o) =? 0) eqn:Hl; cbn [negb snd];
      [discriminate|].
    apply len_eqb_0_false in Hl. intros H. right. exists rr.
    split; [reflexivity|]. split; [assumption|].
    destruct (ParseQuantity (StorageLimit o)) as [rl|e] eqn:Hp; cbn [snd] in H.
    + destruct (Cmp rl rr <? 1) eqn:Hc; cbn [snd] in H; [|discriminate].
      injection H as <-. right. exists rl. repeat split.
      now apply (Cmp_not_greater HL).
    + injection H as <-. now left.
  - intros [= ->]. now left.
Qed.

(** X13: when the storage request does not parse, the builder returns its
    parse error, whatever the storage limit is. *)
Theorem createPersistentVolumeClaim_request_error
    (o : CreatePersistentVolumeClaimOptions) (e : error) :
  ParseQuantity (StorageRequest o) = inr e ->
  createPersistentVolumeClaim o = (None, Some e).
Proof.
  intros H. unfold createPersistentVolumeClaim, parseResources.
  now rewrite H.
Qed.

(** X14: whether the builder fails, and with which error, depends on the
    storage request and the storage limit only: the name, the namespace, the
    access modes and the storage class are never a reason to fail. *)
Theorem createPersistentVolumeClaim_error_fields
    (o o' : CreatePersistentVolumeClaimOptions) :
  StorageRequest o = StorageRequest o' -> StorageLimit o = StorageLimit o' ->
  snd (createPersistentVolumeClaim o) = snd (createPersistentVolumeClaim o').
Proof.
  intros Hr Hl. rewrite !createPersistentVolumeClaim_error.
  unfold parseResources. now rewrite Hr, Hl.
Qed.

(** X15: when parseResources fails, the requirements it returns with the
    error have nil limits, and nil requests exactly when it was the storage
    request that did not parse. *)
Theorem parseResources_failure (o : CreatePersistentVolumeClaimOptions)
    (vrr : corev1.VolumeResourceRequirements) (err : error) :
  parseResources o = (vrr, Some err) ->
  corev1.Limits vrr = ∅ /\
  (corev1.Requests vrr = ∅ <->
   exists e, ParseQuantity (StorageRequest o) = inr e).
Proof.
  unfold parseResources.
  destruct (ParseQuantity (StorageRequest o)) as [rr|e] eqn:Hr.
  - assert (Hne : ({[ corev1.ResourceStorage := rr ]} : gmap string Quantity)
                  <> ∅).
    { intros E. apply (f_equal (fun m => m !! corev1.ResourceStorage)) in E.
      rewrite lookup_singleton_eq, lookup_empty in E. discriminate. }
    assert (Hno : ~ exists e : error, @inl Quantity error rr = inr e).
    { intros [e He]. discriminate. }
    destruct (len (StorageLimit o) =? 0); cbn [negb]; [discriminate|].
    destruct (ParseQuantity (StorageLimit o)) as [rl|e].
    + destruct (Cmp rl rr <? 1); [|discriminate].
      intros [= <- _]. cbn. split; [reflexivity | tauto].
    + intros [= <- _]. cbn. split; [reflexivity | tauto].
  - intros [= <- _]. cbn. split; [reflexivity|]. split; eauto.
Qed.

(** ** Validate, then build *)

(** X16: the access modes of a claim built from options that Validate
    accepts are valid modes. *)
Theorem Validate_createPersistentVolumeClaim
    (o : CreatePersistentVolumeClaimOptions) (pvc : corev1.PersistentVolumeClaim) :
  Validate o = None ->
  fst (createPersistentVolumeClaim o) = Some pvc ->
  Forall (fun am => am = "ReadOnlyMany" \/ am = "ReadWriteMany" \/
                    am = "ReadWriteOnce")
    (corev1.AccessModes (corev1.Spec pvc)).
Proof.
  intros Hv H. apply createPersistentVolumeClaim_success in H.
  destruct H as (_ & -> & _). apply Validate_None in Hv.
  destruct Hv as (_ & _ & Hmodes).
  destruct (len (AccessModes o) =? 0) eqn:Ha; cbn [negb]; [constructor|].
  apply len_eqb_0_false in Ha. destruct Hmodes as [E|HF]; [contradiction|].
  rewrite parseAccessModes_Split.
  eapply List.Forall_impl; [|exact HF].
  intros am. unfold validModes. simpl. intuition auto.
Qed.

End ClaimProperties.

Lemma createPersistentVolumeClaim_no_access_modes_witness :
  exists pvc,
    fst (createPersistentVolumeClaim (L := IntegerQuantities.lib)
           (test_options "5Gi" "" "" "" false)) = Some pvc /\
    (corev1.AccessModes (corev1.Spec pvc) = [] <->
     AccessModes (test_options "5Gi" "" "" "" false) = "").
Proof.
  eexists. split; [reflexivity|].
  apply (createPersistentVolumeClaim_no_access_modes
           (L := IntegerQuantities.lib)).
  reflexivity.
Defined.

Lemma createPersistentVolumeClaim_storage_class_witness :
  let o := test_options "5Gi" "" "" "test-class" false in
  exists pvc,
    fst (createPersistentVolumeClaim (L := IntegerQuantities.lib) o)
      = Some pvc /\
    (StorageClassName o = "" ->
     corev1.StorageClassName (corev1.Spec pvc) = None) /\
    (StorageClassName o <> "" ->
     corev1.StorageClassName (corev1.Spec pvc) = Some "test-class").
Proof.
  intros o. eexists. split; [reflexivity|].
  apply (createPersistentVolumeClaim_storage_class
           (L := IntegerQuantities.lib) o).
  reflexivity.
Defined.

Lemma createPersistentVolumeClaim_requests_witness :
  let o := test_options "5Gi" "10Gi" "" "" false in
  exists pvc,
    fst (createPersistentVolumeClaim (L := IntegerQuantities.lib) o)
      = Some pvc /\
    exists rr : Z, IntegerQuantities.ParseQuantity (StorageRequest o) = inl rr /\
      corev1.Requests (corev1.Resources (corev1.Spec pvc))
        = {[ corev1.ResourceStorage := rr ]}.
Proof.
  intros o. eexists. split; [reflexivity|].
  apply (createPersistentVolumeClaim_requests
           (L := IntegerQuantities.lib) o).
  reflexivity.
Defined.

Lemma createPersistentVolumeClaim_limits_witness :
  let o := test_options "5Gi" "10Gi" "" "" false in
  exists pvc,
    fst (createPersistentVolumeClaim (L := IntegerQuantities.lib) o)
      = Some pvc /\
    StorageLimit o <> "" /\
    IntegerQuantities.ParseQuantity (StorageLimit o) = inl (10 * 2 ^ 30) /\
    exists rr : Z,
      corev1.Requests (corev1.Resources (corev1.Spec pvc)) !! "storage"
        = Some rr /\
      (inject_Z rr < inject_Z (10 * 2 ^ 30))%Q.
Proof.
  intros o. eexists. split; [reflexivity|].
  apply (createPersistentVolumeClaim_limits
           (L := IntegerQuantities.lib) IntegerQuantities_CmpNumeric
           o _ "storage" (10 * 2 ^ 30)); reflexivity.
Defined.

Lemma createPersistentVolumeClaim_no_limits_witness :
  let o := test_options "5Gi" "" "ReadWriteOnce" "" false in
  exists pvc,
    fst (createPersistentVolumeClaim (L := IntegerQuantities.lib) o)
      = Some pvc /\
    (corev1.Limits (corev1.Resources (corev1.Spec pvc)) = ∅ <->
     StorageLimit o = "").
Proof.
  intros o. eexists. split; [reflexivity|].
  apply (createPersistentVolumeClaim_no_limits
           (L := IntegerQuantities.lib) o).
  reflexivity.
Defined.

Lemma createPersistentVolumeClaim_errors_witness :
  let o := test_options "5Gi" "1Gi" "" "" false in
  let err := errorString
               "Resource limit is the same/less than the resource request" in
  IntegerQuantities.ParseQuantity (StorageRequest o) = inr err \/
  (exists rr : Z, IntegerQuantities.ParseQuantity (StorageRequest o) = inl rr /\
     StorageLimit o <> "" /\
     (IntegerQuantities.ParseQuantity (StorageLimit o) = inr err \/
      exists rl : Z, IntegerQuantities.ParseQuantity (StorageLimit o) = inl rl /\
        (inject_Z rl <= inject_Z rr)%Q /\
        err = errorString
                "Resource limit is the same/less than the resource request")).
Proof.
  intros o err.
  apply (createPersistentVolumeClaim_errors
           (L := IntegerQuantities.lib) IntegerQuantities_CmpNumeric o err).
  reflexivity.
Defined.

Lemma createPersistentVolumeClaim_request_error_witness :
  createPersistentVolumeClaim (L := IntegerQuantities.lib)
    (test_options "five" "10Gigs" "ReadWriteOnce" "" false)
  = (None, Some (errorString "quantities must match the regular expression")).
Proof.
  apply (createPersistentVolumeClaim_request_error
           (L := IntegerQuantities.lib)).
  reflexivity.
Defined.

Lemma createPersistentVolumeClaim_error_fields_witness :
  snd (createPersistentVolumeClaim (L := IntegerQuantities.lib)
         (test_options "5Gi" "1Gi" "" "" false))
  = snd (createPersistentVolumeClaim (L := IntegerQuantities.lib)
           {| Name := ""; Namespace := ""; StorageRequest := "5Gi";
              StorageLimit := "1Gi"; StorageClassName := "fast";
              AccessModes := "ReadWriteBoth,"; EnforceNamespace := true |}).
Proof.
  apply (createPersistentVolumeClaim_error_fields
           (L := IntegerQuantities.lib)); reflexivity.
Defined.

Lemma parseResources_failure_witness :
  let o := test_options "5Gi" "10Gigs" "" "" false in
  let vrr := {| corev1.Limits := ∅;
                corev1.Requests := {[ corev1.ResourceStorage := 5 * 2 ^ 30 ]} |} in
  corev1.Limits (L := IntegerQuantities.lib) vrr = ∅ /\
  (corev1.Requests (L := IntegerQuantities.lib) vrr = ∅ <->
   exists e, IntegerQuantities.ParseQuantity (StorageRequest o) = inr e).
Proof.
  intros o vrr.
  apply (parseResources_failure (L := IntegerQuantities.lib) o vrr
           (errorString "unable to parse quantity's suffix")).
  reflexivity.
Defined.

Lemma Validate_createPersistentVolumeClaim_witness :
  let o := test_options "5Gi" "" "ReadWriteOnce,ReadOnlyMany" "" false in
  exists pvc,
    fst (createPersistentVolumeClaim (L := IntegerQuantities.lib) o)
      = Some pvc /\
    Forall (fun am => am = "ReadOnlyMany" \/ am = "ReadWriteMany" \/
                      am = "ReadWriteOnce")
      (corev1.AccessModes (corev1.Spec pvc)).
Proof.
  intros o. eexists. split; [reflexivity|].
  apply (Validate_createPersistentVolumeClaim
           (L := IntegerQuantities.lib) o); reflexivity.
Defined.

(** ** Run *)

Section RunProperties.
Context {L : resource_requests.Library}.
Variable CreateOrUpdateAnnotation :
  bool -> corev1.PersistentVolumeClaim ->
  corev1.PersistentVolumeClaim * option error.

Lemma append_empty_r (s : string) : s +:+ "" = s.
Proof.
  induction s as [|c s IH]; [reflexivity|].
  change (String c (s +:+ "") = String c s). now rewrite IH.
Qed.

(** The error of [Run] for a failed creation, written out. *)
Lemma Errorf_failed_to_create (err : error) :
  fmt.Errorf_v "failed to create persistentVolumeClaim %v" [err]
  = errorString ("failed to create persistentVolumeClaim " +:+ Error err).
Proof.
  unfold fmt.Errorf_v. cbn. now rewrite append_empty_r.
Qed.

(** The four ways [Run] gets past the builder. *)
Lemma Run_cases (o : CreatePersistentVolumeClaimRunOptions) :
  (exists err, snd (createPersistentVolumeClaim o) = Some err /\
     Run CreateOrUpdateAnnotation o = ([], Some err)) \/
  (exists pv0 pv err,
     createPersistentVolumeClaim o = (Some pv0, None) /\
     CreateOrUpdateAnnotation (CreateAnnotation o) pv0 = (pv, Some err) /\
     Run CreateOrUpdateAnnotation o = ([call_CreateOrUpdateAnnotation (CreateAnnotation o) pv0],
              Some err)) \/
  (exists pv0 pv,
     createPersistentVolumeClaim o = (Some pv0, None) /\
     CreateOrUpdateAnnotation (CreateAnnotation o) pv0 = (pv, None) /\
     DryRunStrategy o = cmdutil.DryRunClient /\
     Run CreateOrUpdateAnnotation o = ([call_CreateOrUpdateAnnotation (CreateAnnotation o) pv0;
               call_PrintObj pv], PrintObj o pv)) \/
  (exists pv0 pv,
     createPersistentVolumeClaim o = (Some pv0, None) /\
     CreateOrUpdateAnnotation (CreateAnnotation o) pv0 = (pv, None) /\
     DryRunStrategy o <> cmdutil.DryRunClient /\
     let createOptions :=
       {| metav1.DryRun :=
            match DryRunStrategy o with
            | cmdutil.DryRunServer => ["All"]
            | _ => []
            end;
          metav1.FieldManager := FieldManager o;
          metav1.FieldValidation := ValidationDirective o |} in
     let annotate := call_CreateOrUpdateAnnotation (CreateAnnotation o) pv0 in
     let create := call_Create (Namespace o) pv createOptions in
     Run CreateOrUpdateAnnotation o =
       match Client o (Namespace o) pv createOptions with
       | inr err =>
           ([annotate; create],
            Some (errorString
                    ("failed to create persistentVolumeClaim " +:+ Error err)))
       | inl pv' => ([annotate; create; call_PrintObj pv'], PrintObj o pv')
       end).
Proof.
  unfold Run.
  destruct (createPersistentVolumeClaim_result o) as [[pv0 E] | [err E]];
    rewrite E; [|left; eauto].
  right.
  destruct (CreateOrUpdateAnnotation (CreateAnnotation o) pv0)
    as [pv [err|]] eqn:Ea.
  { left. exists pv0, pv, err. auto. }
  right.
  destruct (DryRunStrategy o) eqn:Es; cbn -[fmt.Errorf_v].
  - right. exists pv0, pv.
    split; [reflexivity|]. split; [exact Ea|]. split; [discriminate|].
    destruct (String.eqb_spec (FieldManager o) "") as [->|]; cbn -[fmt.Errorf_v];
      destruct (Client o _ _ _); now rewrite ?Errorf_failed_to_create.
  - left. exists pv0, pv. auto.
  - right. exists pv0, pv.
    split; [reflexivity|]. split; [exact Ea|]. split; [discriminate|].
    destruct (String.eqb_spec (FieldManager o) "") as [->|]; cbn -[fmt.Errorf_v];
      destruct (Client o _ _ _); now rewrite ?Errorf_failed_to_create.
Qed.

Ltac run_cases o :=
  let err := fresh "err" in
  let pv0 := fresh "pv0" in
  let pv1 := fresh "pv1" in
  let Hb := fresh "Hb" in
  let Ha := fresh "Ha" in
  let Hs := fresh "Hs" in
  let HR := fresh "HR" in
  destruct (Run_cases o)
    as [(err & Hb & HR)
       | [(pv0 & pv1 & err & Hb & Ha & HR)
         | [(pv0 & pv1 & Hb & Ha & Hs & HR)
           | (pv0 & pv1 & Hb & Ha & Hs & HR)]]];
  cbv zeta in HR.

(** X17: when the builder fails, Run returns the error of the builder as it
    is and calls none of its collaborators: nothing is annotated, sent to the
    server or printed. *)
Theorem Run_builder_error (o : CreatePersistentVolumeClaimRunOptions)
    (err : error) :
  snd (createPersistentVolumeClaim o) = Some err ->
  Run CreateOrUpdateAnnotation o = ([], Some err).
Proof.
  intros H. run_cases o; rewrite HR.
  - congruence.
  - rewrite Hb in H. discriminate.
  - rewrite Hb in H. discriminate.
  - rewrite Hb in H. discriminate.
Qed.

(** X18: with the client dry-run strategy, Run never calls Create. *)
Theorem Run_dry_run_client (o : CreatePersistentVolumeClaimRunOptions)
    (namespace : string) (pv : corev1.PersistentVolumeClaim)
    (createOptions : metav1.CreateOptions) :
  DryRunStrategy o = cmdutil.DryRunClient ->
  ~ In (call_Create namespace pv createOptions)
       (fst (Run CreateOrUpdateAnnotation o)).
Proof.
  intros Hd. run_cases o; try contradiction; rewrite HR; simpl;
    intuition discriminate.
Qed.

(** X19: when Run calls Create, the strategy is not the client dry run; the
    namespace is the namespace of the options, enforced or not; the object is
    the built claim after the annotation step; the create options carry the
    field manager and the validation directive of the options, and the
    dry-run list is [All] for the server dry run and nil otherwise. *)
Theorem Run_Create_arguments (o : CreatePersistentVolumeClaimRunOptions)
    (namespace : string) (pv : corev1.PersistentVolumeClaim)
    (createOptions : metav1.CreateOptions) :
  In (call_Create namespace pv createOptions)
     (fst (Run CreateOrUpdateAnnotation o)) ->
  DryRunStrategy o <> cmdutil.DryRunClient /\
  namespace = Namespace o /\
  (exists pv0, createPersistentVolumeClaim o = (Some pv0, None) /\
     CreateOrUpdateAnnotation (CreateAnnotation o) pv0 = (pv, None)) /\
  metav1.FieldManager createOptions = FieldManager o /\
  metav1.FieldValidation createOptions = ValidationDirective o /\
  metav1.DryRun createOptions =
    match DryRunStrategy o with
    | cmdutil.DryRunServer => ["All"]
    | _ => []
    end.
Proof.
  intros Hin. run_cases o; rewrite HR in Hin.
  - destruct Hin.
  - simpl in Hin. intuition discriminate.
  - simpl in Hin. intuition discriminate.
  - assert (E : call_Create namespace pv createOptions =
                call_Create (Namespace o) pv1
                  {| metav1.DryRun :=
                       match DryRunStrategy o with
                       | cmdutil.DryRunServer => ["All"]
                       | _ => []
                       end;
                     metav1.FieldManager := FieldManager o;
                     metav1.FieldValidation := ValidationDirective o |}).
    { destruct (Client o (Namespace o) pv1 _); simpl in Hin;
        intuition (congruence || discriminate). }
    injection E as -> -> ->. cbn. repeat split; eauto.
Qed.

(** X20: when the call to Create fails, Run returns the error "failed to
    create persistentVolumeClaim" followed by the message of the server's
    error, and prints nothing. *)
Theorem Run_Create_error (o : CreatePersistentVolumeClaimRunOptions)
    (namespace : string) (pv : corev1.PersistentVolumeClaim)
    (createOptions : metav1.CreateOptions) (e : error) :
  In (call_Create namespace pv createOptions)
     (fst (Run CreateOrUpdateAnnotation o)) ->
  Client o namespace pv createOptions = inr e ->
  snd (Run CreateOrUpdateAnnotation o) =
    Some (errorString ("failed to create persistentVolumeClaim " +:+ Error e)) /\
  forall pv', ~ In (call_PrintObj pv') (fst (Run CreateOrUpdateAnnotation o)).
Proof.
  intros Hin Hc. run_cases o; rewrite HR in Hin |- *.
  - destruct Hin.
  - simpl in Hin. intuition discriminate.
  - simpl in Hin. intuition discriminate.
  - destruct (Client o (Namespace o) pv1 _) as [pv'|e'] eqn:Hc';
      simpl in Hin; destruct Hin as [Hin|[Hin|Hin]];
      try discriminate; try contradiction;
      try (destruct Hin; discriminate || contradiction);
      injection Hin as <- <- <-; rewrite Hc' in Hc; [discriminate|].
    injection Hc as ->. split; [reflexivity|].
    intros p. simpl. intuition discriminate.
Qed.

(** X21: when the call to Create succeeds, Run prints the claim that the
    server returned, and nothing else, and returns the result of printing. *)
Theorem Run_prints_created (o : CreatePersistentVolumeClaimRunOptions)
    (namespace : string) (pv pv' : corev1.PersistentVolumeClaim)
    (createOptions : metav1.CreateOptions) :
  In (call_Create namespace pv createOptions)
     (fst (Run CreateOrUpdateAnnotation o)) ->
  Client o namespace pv createOptions = inl pv' ->
  snd (Run CreateOrUpdateAnnotation o) = PrintObj o pv' /\
  forall p, In (call_PrintObj p) (fst (Run CreateOrUpdateAnnotation o))
            <-> p = pv'.
Proof.
  intros Hin Hc. run_cases o; rewrite HR in Hin |- *.
  - destruct Hin.
  - simpl in Hin. intuition discriminate.
  - simpl in Hin. intuition discriminate.
  - destruct (Client o (Namespace o) pv1 _) as [pv2|e'] eqn:Hc';
      simpl in Hin; destruct Hin as [Hin|[Hin|Hin]];
      try discriminate; try contradiction;
      try (destruct Hin; discriminate || contradiction);
      injection Hin as <- <- <-; rewrite Hc' in Hc; [|discriminate].
    injection Hc as ->. split; [reflexivity|].
    intros p. simpl. split.
    + intros [H|[H|[H|[]]]]; try discriminate. now injection H as ->.
    + intros ->. auto.
Qed.

(** X22: a printed claim is the last call of Run, after an annotation step
    without error, and the result of Run is the result of printing it. *)
Theorem Run_prints_last (o : CreatePersistentVolumeClaimRunOptions)
    (p : corev1.PersistentVolumeClaim) :
  In (call_PrintObj p) (fst (Run CreateOrUpdateAnnotation o)) ->
  snd (Run CreateOrUpdateAnnotation o) = PrintObj o p /\
  (exists calls,
     fst (Run CreateOrUpdateAnnotation o) = (calls ++ [call_PrintObj p])%list /\
     forall p', ~ In (call_PrintObj p') calls) /\
  exists pv0 pv,
    createPersistentVolumeClaim o = (Some pv0, None) /\
    CreateOrUpdateAnnotation (CreateAnnotation o) pv0 = (pv, None).
Proof.
  intros Hin. run_cases o; rewrite HR in Hin |- *.
  - destruct Hin.
  - simpl in Hin. intuition discriminate.
  - simpl in Hin. destruct Hin as [H|[H|[]]]; [discriminate|].
    injection H as ->. split; [reflexivity|]. split; [|eauto].
    exists [call_CreateOrUpdateAnnotation (CreateAnnotation o) pv0].
    split; [reflexivity|]. intros p'. simpl. intuition discriminate.
  - destruct (Client o (Namespace o) pv1 _) as [pv2|e'] eqn:Hc';
      simpl in Hin.
    + destruct Hin as [H|[H|[H|[]]]]; try discriminate.
      injection H as ->. split; [reflexivity|]. split; [|eauto].
      eexists [_; _]. split; [reflexivity|].
      intros p'. simpl. intuition discriminate.
    + destruct Hin as [H|[H|[]]]; discriminate.
Qed.

End RunProperties.

(** ** Run on the values of the tests *)

Lemma Run_builder_error_witness :
  Run (L := IntegerQuantities.lib) test_annotation
    (test_run_options (test_options "5Gi" "5Gi" "ReadWriteOnce" "" false)
       cmdutil.DryRunNone None)
  = ([], Some (errorString
                 "Resource limit is the same/less than the resource request")).
Proof.
  apply (Run_builder_error (L := IntegerQuantities.lib)). reflexivity.
Defined.

Lemma Run_dry_run_client_witness :
  let o := test_run_options (L := IntegerQuantities.lib)
             (test_options "5Gi" "" "" "" true) cmdutil.DryRunClient None in
  exists pv,
    fst (createPersistentVolumeClaim o) = Some pv /\
    ~ In (call_Create "default" pv
            {| metav1.DryRun := []; metav1.FieldManager := "kubectl-create";
               metav1.FieldValidation := "Strict" |})
         (fst (Run test_annotation o)).
Proof.
  intros o. eexists. split; [reflexivity|].
  apply (Run_dry_run_client (L := IntegerQuantities.lib) test_annotation o).
  reflexivity.
Defined.

Lemma Run_Create_arguments_witness :
  let o := test_run_options (L := IntegerQuantities.lib)
             (test_options "5Gi" "" "" "" false) cmdutil.DryRunServer None in
  exists pv createOptions,
    In (call_Create "default" pv createOptions)
       (fst (Run test_annotation o)) /\
    DryRunStrategy o <> cmdutil.DryRunClient /\
    "default" = Namespace o /\
    (exists pv0, createPersistentVolumeClaim o = (Some pv0, None) /\
       test_annotation (CreateAnnotation o) pv0 = (pv, None)) /\
    metav1.FieldManager createOptions = "kubectl-create" /\
    metav1.FieldValidation createOptions = "Strict" /\
    metav1.DryRun createOptions = ["All"].
Proof.
  intros o. do 2 eexists. split.
  - cbn. right. left. reflexivity.
  - apply (Run_Create_arguments (L := IntegerQuantities.lib)
             test_annotation o).
    cbn. right. left. reflexivity.
Defined.

Lemma Run_Create_error_witness :
  let o := test_run_options (L := IntegerQuantities.lib)
             (test_options "5Gi" "" "" "" false) cmdutil.DryRunNone
             (Some (errorString "already exists")) in
  snd (Run test_annotation o) =
    Some (errorString
            "failed to create persistentVolumeClaim already exists") /\
  forall pv', ~ In (call_PrintObj pv') (fst (Run test_annotation o)).
Proof.
  intros o.
  eapply (Run_Create_error (L := IntegerQuantities.lib) test_annotation o
            "default" _ _ (errorString "already exists")).
  - cbn. right. left. reflexivity.
  - reflexivity.
Defined.

Lemma Run_prints_created_witness :
  let o := test_run_options (L := IntegerQuantities.lib)
             (test_options "5Gi" "10Gi" "" "" false) cmdutil.DryRunNone None in
  exists pv',
    fst (createPersistentVolumeClaim o) = Some pv' /\
    snd (Run test_annotation o) = PrintObj o pv' /\
    forall p, In (call_PrintObj p) (fst (Run test_annotation o)) <-> p = pv'.
Proof.
  intros o. eexists. split; [reflexivity|].
  eapply (Run_prints_created (L := IntegerQuantities.lib) test_annotation o).
  - cbn. right. left. reflexivity.
  - reflexivity.
Defined.

Lemma Run_prints_last_witness :
  let o := test_run_options (L := IntegerQuantities.lib)
             (test_options "5Gi" "" "" "" false) cmdutil.DryRunClient None in
  exists p,
    fst (createPersistentVolumeClaim o) = Some p /\
    snd (Run test_annotation o) = PrintObj o p /\
    (exists calls,
       fst (Run test_annotation o) = (calls ++ [call_PrintObj p])%list /\
       forall p', ~ In (call_PrintObj p') calls) /\
    exists pv0 pv,
      createPersistentVolumeClaim o = (Some pv0, None) /\
      test_annotation (L := IntegerQuantities.lib) (CreateAnnotation o) pv0
        = (pv, None).
Proof.
  intros o. eexists. split; [reflexivity|].
  apply (Run_prints_last (L := IntegerQuantities.lib) test_annotation o).
  cbn. right. left. reflexivity.
Defined.
